(** * OAuth authorization-server routes: issuer validation, metadata, route table

    A shallow embedding of [src/mcp/server/auth/routes.py] and the
    properties of its functions: [validate_issuer_url], [cors_middleware],
    [create_auth_routes], [build_metadata] and
    [create_protected_resource_routes].

    Python values are rendered as follows.
    - [str] is [string]; [list[str]] is [list string]; [X | None] is
      [option X].
    - A raised exception is the [Raise] branch of [result]; a function that
      returns normally yields [Ok].
    - pydantic's [AnyHttpUrl] and starlette's [Route] and [CORSMiddleware]
      are library classes: they are records of the attributes the module
      reads from them, respectively of the arguments the module passes to
      their constructors. *)

From Stdlib Require Import String Ascii List Bool.
From stdpp Require Import base option gmap strings list fin_maps.
Import ListNotations.
Local Open Scope string_scope.

(** ** Python strings *)

Module PyStr.

(** [c in chars] for a one-character [c]. *)
Fixpoint mem (c : ascii) (chars : string) : bool :=
  match chars with
  | EmptyString => false
  | String d chars' => Ascii.eqb c d || mem c chars'
  end.

(** [s.rstrip(chars)]: drop the longest suffix of [s] made of characters
    of [chars]. *)
Fixpoint rstrip (chars s : string) : string :=
  match s with
  | EmptyString => EmptyString
  | String c s' =>
      match rstrip chars s' with
      | EmptyString => if mem c chars then EmptyString else String c EmptyString
      | r => String c r
      end
  end.

(** [s.startswith(p)]. *)
Definition startswith (s p : string) : bool := String.prefix p s.

(** [s.endswith(p)], used in statements only. *)
Fixpoint endswith_char (s : string) (c : ascii) : bool :=
  match s with
  | EmptyString => false
  | String d EmptyString => Ascii.eqb d c
  | String _ s' => endswith_char s' c
  end.

(** [c * n]. *)
Fixpoint repeat_char (c : ascii) (n : nat) : string :=
  match n with
  | O => EmptyString
  | S n' => String c (repeat_char c n')
  end.

(** Truth value of an optional string: [None] and [""] are false. *)
Definition truthy (o : option string) : bool :=
  match o with
  | Some (String _ _) => true
  | _ => false
  end.

(** [o != s] for an optional string [o]. *)
Definition opt_ne (o : option string) (s : string) : bool :=
  match o with
  | Some h => negb (String.eqb h s)
  | None => true
  end.

End PyStr.

(** ** Exceptions and the error monad *)

Inductive Exception : Type :=
| ValueError (msg : string)
| ValidationError (msg : string).

Inductive result (A : Type) : Type :=
| Ok (a : A)
| Raise (e : Exception).
Arguments Ok {A} a.
Arguments Raise {A} e.

Definition bind {A B : Type} (m : result A) (k : A -> result B) : result B :=
  match m with
  | Ok a => k a
  | Raise e => Raise e
  end.

(** [if c: raise e] *)
Definition raise_if (c : bool) (e : Exception) : result unit :=
  if c then Raise e else Ok tt.

Declare Scope py_scope.
Delimit Scope py_scope with py.
Notation "x <- m ;; k" := (bind m (fun x => k))
  (at level 100, m at level 99, right associativity) : py_scope.
Notation "m ;; k" := (bind m (fun _ => k))
  (at level 100, right associativity) : py_scope.


(** ** URLs *)

(** The attributes of a pydantic [AnyHttpUrl] that the module reads;
    [unicode_string] is [str(url)]. *)
Record AnyHttpUrl : Type := mkUrl {
  scheme : string;
  host : option string;
  fragment : option string;
  query : option string;
  unicode_string : string
}.

(** ** The issuer validator *)

Definition validate_issuer_url (url : AnyHttpUrl) : result unit :=
  (raise_if
     (negb (String.eqb (scheme url) "https")
      && PyStr.opt_ne (host url) "localhost"
      && match host url with
         | Some h => negb (PyStr.startswith h "127.0.0.1")
         | None => false
         end)
     (ValueError "Issuer URL must be HTTPS") ;;
   raise_if (PyStr.truthy (fragment url))
     (ValueError "Issuer URL must not have a fragment") ;;
   raise_if (PyStr.truthy (query url))
     (ValueError "Issuer URL must not have a query string") ;;
   Ok tt)%py.

(** ** Path constants *)

Definition AUTHORIZATION_PATH : string := "/authorize".
Definition TOKEN_PATH : string := "/token".
Definition REGISTRATION_PATH : string := "/register".
Definition REVOCATION_PATH : string := "/revoke".

(** ** Policies and metadata documents *)

(** [mcp.server.auth.settings]: the two attributes of
    [ClientRegistrationOptions] and the one of [RevocationOptions] that the
    module reads. *)
Record ClientRegistrationOptions : Type := mkRegistrationOptions {
  registration_enabled : bool;
  valid_scopes : option (list string)
}.

Record RevocationOptions : Type := mkRevocationOptions {
  revocation_enabled : bool
}.

(** [mcp.shared.auth.OAuthMetadata], with the fields the module sets.
    An endpoint built as [AnyHttpUrl(text)] is kept as [text], the argument
    of pydantic's constructor. The three fields that [build_metadata] only
    assigns after construction start as [None]. *)
Record OAuthMetadata : Type := mkOAuthMetadata {
  issuer : AnyHttpUrl;
  authorization_endpoint : string;
  token_endpoint : string;
  scopes_supported : option (list string);
  response_types_supported : list string;
  response_modes_supported : option (list string);
  grant_types_supported : option (list string);
  token_endpoint_auth_methods_supported : option (list string);
  token_endpoint_auth_signing_alg_values_supported : option (list string);
  service_documentation : option AnyHttpUrl;
  ui_locales_supported : option (list string);
  op_policy_uri : option string;
  op_tos_uri : option string;
  introspection_endpoint : option string;
  code_challenge_methods_supported : option (list string);
  registration_endpoint : option string;
  revocation_endpoint : option string;
  revocation_endpoint_auth_methods_supported : option (list string)
}.

(** [metadata.registration_endpoint = v] *)
Definition set_registration_endpoint (v : string) (m : OAuthMetadata) : OAuthMetadata :=
  mkOAuthMetadata
    (issuer m) (authorization_endpoint m) (token_endpoint m)
    (scopes_supported m) (response_types_supported m)
    (response_modes_supported m) (grant_types_supported m)
    (token_endpoint_auth_methods_supported m)
    (token_endpoint_auth_signing_alg_values_supported m)
    (service_documentation m) (ui_locales_supported m) (op_policy_uri m)
    (op_tos_uri m) (introspection_endpoint m)
    (code_challenge_methods_supported m)
    (Some v) (revocation_endpoint m)
    (revocation_endpoint_auth_methods_supported m).

(** [metadata.revocation_endpoint = v] *)
Definition set_revocation_endpoint (v : string) (m : OAuthMetadata) : OAuthMetadata :=
  mkOAuthMetadata
    (issuer m) (authorization_endpoint m) (token_endpoint m)
    (scopes_supported m) (response_types_supported m)
    (response_modes_supported m) (grant_types_supported m)
    (token_endpoint_auth_methods_supported m)
    (token_endpoint_auth_signing_alg_values_supported m)
    (service_documentation m) (ui_locales_supported m) (op_policy_uri m)
    (op_tos_uri m) (introspection_endpoint m)
    (code_challenge_methods_supported m)
    (registration_endpoint m) (Some v)
    (revocation_endpoint_auth_methods_supported m).

(** [metadata.revocation_endpoint_auth_methods_supported = v] *)
Definition set_revocation_endpoint_auth_methods_supported
    (v : list string) (m : OAuthMetadata) : OAuthMetadata :=
  mkOAuthMetadata
    (issuer m) (authorization_endpoint m) (token_endpoint m)
    (scopes_supported m) (response_types_supported m)
    (response_modes_supported m) (grant_types_supported m)
    (token_endpoint_auth_methods_supported m)
    (token_endpoint_auth_signing_alg_values_supported m)
    (service_documentation m) (ui_locales_supported m) (op_policy_uri m)
    (op_tos_uri m) (introspection_endpoint m)
    (code_challenge_methods_supported m)
    (registration_endpoint m) (revocation_endpoint m) (Some v).

(** ** The metadata builder *)

Definition build_metadata
    (issuer_url : AnyHttpUrl)
    (service_documentation_url : option AnyHttpUrl)
    (client_registration_options : ClientRegistrationOptions)
    (revocation_options : RevocationOptions) : OAuthMetadata :=
  let authorization_url :=
    PyStr.rstrip "/" (unicode_string issuer_url) ++ AUTHORIZATION_PATH in
  let token_url :=
    PyStr.rstrip "/" (unicode_string issuer_url) ++ TOKEN_PATH in
  let metadata :=
    {| issuer := issuer_url;
       authorization_endpoint := authorization_url;
       token_endpoint := token_url;
       scopes_supported := valid_scopes client_registration_options;
       response_types_supported := ["code"];
       response_modes_supported := None;
       grant_types_supported := Some ["authorization_code"; "refresh_token"];
       token_endpoint_auth_methods_supported := Some ["client_secret_post"];
       token_endpoint_auth_signing_alg_values_supported := None;
       service_documentation := service_documentation_url;
       ui_locales_supported := None;
       op_policy_uri := None;
       op_tos_uri := None;
       introspection_endpoint := None;
       code_challenge_methods_supported := Some ["S256"];
       registration_endpoint := None;
       revocation_endpoint := None;
       revocation_endpoint_auth_methods_supported := None |} in
  let metadata :=
    if registration_enabled client_registration_options
    then set_registration_endpoint
           (PyStr.rstrip "/" (unicode_string issuer_url) ++ REGISTRATION_PATH)
           metadata
    else metadata in
  let metadata :=
    if revocation_enabled revocation_options
    then set_revocation_endpoint_auth_methods_supported ["client_secret_post"]
           (set_revocation_endpoint
              (PyStr.rstrip "/" (unicode_string issuer_url) ++ REVOCATION_PATH)
              metadata)
    else metadata in
  metadata.

(** ** The wire document *)

Inductive JsonValue : Type :=
| JNull
| JString (s : string)
| JArray (l : list string).

(** Add [k] to the object unless the value is [None]. *)
Definition put_field (k : string) (ov : option JsonValue)
    (doc : gmap string JsonValue) : gmap string JsonValue :=
  match ov with
  | Some v => <[k := v]> doc
  | None => doc
  end.

(** Modelled from the spec: the serialization of the metadata model to its
    JSON object lives in the handlers and response classes, which are not
    part of [routes.py]. Section 9 of the spec fixes its rule for optional
    fields: a field whose value is [None] is omitted from the object, never
    emitted as an explicit null. *)
Definition to_document (m : OAuthMetadata) : gmap string JsonValue :=
  put_field "issuer" (Some (JString (unicode_string (issuer m))))
  (put_field "authorization_endpoint" (Some (JString (authorization_endpoint m)))
  (put_field "token_endpoint" (Some (JString (token_endpoint m)))
  (put_field "scopes_supported" (JArray <$> scopes_supported m)
  (put_field "response_types_supported" (Some (JArray (response_types_supported m)))
  (put_field "response_modes_supported" (JArray <$> response_modes_supported m)
  (put_field "grant_types_supported" (JArray <$> grant_types_supported m)
  (put_field "token_endpoint_auth_methods_supported"
     (JArray <$> token_endpoint_auth_methods_supported m)
  (put_field "token_endpoint_auth_signing_alg_values_supported"
     (JArray <$> token_endpoint_auth_signing_alg_values_supported m)
  (put_field "service_documentation"
     ((fun u => JString (unicode_string u)) <$> service_documentation m)
  (put_field "ui_locales_supported" (JArray <$> ui_locales_supported m)
  (put_field "op_policy_uri" (JString <$> op_policy_uri m)
  (put_field "op_tos_uri" (JString <$> op_tos_uri m)
  (put_field "introspection_endpoint" (JString <$> introspection_endpoint m)
  (put_field "code_challenge_methods_supported"
     (JArray <$> code_challenge_methods_supported m)
  (put_field "registration_endpoint" (JString <$> registration_endpoint m)
  (put_field "revocation_endpoint" (JString <$> revocation_endpoint m)
  (put_field "revocation_endpoint_auth_methods_supported"
     (JArray <$> revocation_endpoint_auth_methods_supported m)
  ∅))))))))))))))))).

(** [mcp.shared.auth.ProtectedResourceMetadata], with the fields the module
    passes and the one its comment names. *)
Record ProtectedResourceMetadata : Type := mkProtectedResourceMetadata {
  resource : AnyHttpUrl;
  authorization_servers : list AnyHttpUrl;
  pr_scopes_supported : option (list string);
  bearer_methods_supported : option (list string)
}.

(** Modelled from the spec: the constructor of [ProtectedResourceMetadata]
    is declared in [mcp.shared.auth], which is not part of [routes.py].
    Section 4.3 requires a non-empty list of trusted authorization servers
    and section 7 makes an empty list fail assembly outright; the
    bearer-token delivery methods default to header delivery (also recorded
    in the comment at the call site in [routes.py]). *)
Definition new_ProtectedResourceMetadata
    (resource_url : AnyHttpUrl)
    (servers : list AnyHttpUrl)
    (scopes : option (list string)) : result ProtectedResourceMetadata :=
  match servers with
  | [] => Raise (ValidationError "authorization_servers: List should have at least 1 item")
  | _ :: _ =>
      Ok {| resource := resource_url;
            authorization_servers := servers;
            pr_scopes_supported := scopes;
            bearer_methods_supported := Some ["header"] |}
  end.

(** ** Handlers, cross-origin wrapping and routes *)

Section Routes.

(** The injected [OAuthAuthorizationServerProvider]: opaque to this
    module. *)
Context {Provider : Type}.

(** [mcp.server.streamable_http.MCP_PROTOCOL_VERSION_HEADER], defined
    outside [routes.py]. *)
Variable MCP_PROTOCOL_VERSION_HEADER : string.

(** [ClientRegistrationOptions()] and [RevocationOptions()]: the policies
    built with the defaults of [mcp.server.auth.settings]. *)
Variable default_registration_options : ClientRegistrationOptions.
Variable default_revocation_options : RevocationOptions.

Record ClientAuthenticator : Type := mkClientAuthenticator {
  authenticator_provider : Provider
}.

(** The bound [handle] method of each delegated handler object, named by
    the constructor call that made the object. *)
Inductive Handler : Type :=
| MetadataHandler (metadata : OAuthMetadata)
| AuthorizationHandler (provider : Provider)
| TokenHandler (provider : Provider) (client_authenticator : ClientAuthenticator)
| RegistrationHandler (provider : Provider) (options : ClientRegistrationOptions)
| RevocationHandler (provider : Provider) (client_authenticator : ClientAuthenticator)
| ProtectedResourceMetadataHandler (metadata : ProtectedResourceMetadata).

(** What a route dispatches to: the handler itself, or starlette's
    [CORSMiddleware] around [request_response(handler)] with the keyword
    arguments it was given. *)
Inductive Endpoint : Type :=
| Direct (handler : Handler)
| CORSMiddleware (app : Handler) (allow_origins : string)
    (allow_methods : list string) (allow_headers : list string).

(** The arguments of starlette's [Route(path, endpoint=..., methods=...)]. *)
Record Route : Type := mkRoute {
  path : string;
  endpoint : Endpoint;
  methods : list string
}.

Definition cors_middleware (handler : Handler) (allow_methods : list string)
    : Endpoint :=
  let cors_app :=
    CORSMiddleware handler "*" allow_methods [MCP_PROTOCOL_VERSION_HEADER] in
  cors_app.

(** [x or d] for an optional model object [x]: model objects are true. *)
Definition or_default {A : Type} (x : option A) (d : A) : A :=
  match x with
  | Some a => a
  | None => d
  end.

Definition create_auth_routes
    (provider : Provider)
    (issuer_url : AnyHttpUrl)
    (service_documentation_url : option AnyHttpUrl)
    (client_registration_options : option ClientRegistrationOptions)
    (revocation_options : option RevocationOptions) : result (list Route) :=
  (validate_issuer_url issuer_url ;;
   let client_registration_options :=
     or_default client_registration_options default_registration_options in
   let revocation_options :=
     or_default revocation_options default_revocation_options in
   let metadata :=
     build_metadata issuer_url service_documentation_url
       client_registration_options revocation_options in
   let client_authenticator := mkClientAuthenticator provider in
   let routes :=
     [ mkRoute "/.well-known/oauth-authorization-server"
         (cors_middleware (MetadataHandler metadata) ["GET"; "OPTIONS"])
         ["GET"; "OPTIONS"];
       mkRoute AUTHORIZATION_PATH
         (Direct (AuthorizationHandler provider))
         ["GET"; "POST"];
       mkRoute TOKEN_PATH
         (cors_middleware (TokenHandler provider client_authenticator)
            ["POST"; "OPTIONS"])
         ["POST"; "OPTIONS"] ] in
   let routes :=
     if registration_enabled client_registration_options
     then
       let registration_handler :=
         RegistrationHandler provider client_registration_options in
       (routes ++
         [ mkRoute REGISTRATION_PATH
             (cors_middleware registration_handler ["POST"; "OPTIONS"])
             ["POST"; "OPTIONS"] ])%list
     else routes in
   let routes :=
     if revocation_enabled revocation_options
     then
       let revocation_handler :=
         RevocationHandler provider client_authenticator in
       (routes ++
         [ mkRoute REVOCATION_PATH
             (cors_middleware revocation_handler ["POST"; "OPTIONS"])
             ["POST"; "OPTIONS"] ])%list
     else routes in
   Ok routes)%py.

Definition create_protected_resource_routes
    (resource_url : AnyHttpUrl)
    (authorization_servers : list AnyHttpUrl)
    (scopes_supported : option (list string)) : result (list Route) :=
  (metadata <- new_ProtectedResourceMetadata
                 resource_url authorization_servers scopes_supported ;;
   let handler := ProtectedResourceMetadataHandler metadata in
   Ok [ mkRoute "/.well-known/oauth-protected-resource"
          (cors_middleware handler ["GET"; "OPTIONS"])
          ["GET"; "OPTIONS"] ])%py.

(** The cross-origin policy of an endpoint, if it has one: allowed
    origins, allowed methods, allowed headers. *)
Definition cors_policy (e : Endpoint)
    : option (string * list string * list string) :=
  match e with
  | Direct _ => None
  | CORSMiddleware _ origins ms hs => Some (origins, ms, hs)
  end.

(** The handler a request finally reaches. *)
Definition endpoint_handler (e : Endpoint) : Handler :=
  match e with
  | Direct h => h
  | CORSMiddleware h _ _ _ => h
  end.

End Routes.

(** ** Rules as the specification words them *)

(** The loopback exception of the issuer rule: the host is exactly
    [localhost] or starts with [127.0.0.1]. *)
Definition loopback_host (url : AnyHttpUrl) : Prop :=
  host url = Some "localhost"
  \/ exists h, host url = Some h /\ PyStr.startswith h "127.0.0.1" = true.


(** The issuer rule the validator applies: an absent host passes the scheme
    test as well. *)
Definition issuer_rule (url : AnyHttpUrl) : Prop :=
  PyStr.truthy (fragment url) = false
  /\ PyStr.truthy (query url) = false
  /\ (scheme url = "https" \/ host url = None \/ loopback_host url).

(** Stripping exactly one trailing slash, as the specification words the
    derivation of the endpoints. *)
Fixpoint strip_one_trailing_slash (s : string) : string :=
  match s with
  | EmptyString => EmptyString
  | String c EmptyString => if Ascii.eqb c "/" then EmptyString else s
  | String c s' => String c (strip_one_trailing_slash s')
  end.

(** A route as the route table of the specification lists it: path and
    methods. *)
Definition route_row {Provider : Type} (r : @Route Provider)
    : string * list string :=
  (path r, methods r).

(** The cross-origin rule of the route table: none on the authorization
    path; elsewhere any origin, the entry's own methods and the single
    protocol-version header. *)
Definition cors_rule {Provider : Type} (header : string) (r : @Route Provider)
    : Prop :=
  if String.eqb (path r) AUTHORIZATION_PATH
  then cors_policy (endpoint r) = None
  else cors_policy (endpoint r) = Some ("*", methods r, [header]).

(** ** Example inputs *)

(** The issuer [http://localhost:8080/] of the loopback example. *)
Definition localhost_issuer : AnyHttpUrl :=
  mkUrl "http" (Some "localhost") None None "http://localhost:8080/".

(** The issuer [https://auth.example.com], whose text pydantic prints with
    the root path. *)
Definition example_issuer : AnyHttpUrl :=
  mkUrl "https" (Some "auth.example.com") None None "https://auth.example.com/".

Definition example_resource : AnyHttpUrl :=
  mkUrl "https" (Some "res.example.com") None None "https://res.example.com/".

Definition disabled_registration : ClientRegistrationOptions :=
  mkRegistrationOptions false None.

Definition disabled_revocation : RevocationOptions :=
  mkRevocationOptions false.

Definition enabled_registration : ClientRegistrationOptions :=
  mkRegistrationOptions true (Some ["read"; "write"]).

Definition enabled_revocation : RevocationOptions :=
  mkRevocationOptions true.

(** ** Readings of the validator and of the route table *)

(** The scheme test of the validator passes: secure scheme, absent host or
    loopback host. *)
Definition scheme_rule (url : AnyHttpUrl) : Prop :=
  scheme url = "https" \/ host url = None \/ loopback_host url.

(** The endpoints a metadata object advertises, in field order. *)
Definition advertised_endpoints (m : OAuthMetadata) : list string :=
  ([authorization_endpoint m; token_endpoint m]
   ++ option_list (registration_endpoint m)
   ++ option_list (revocation_endpoint m))%list.

(** The four endpoint fields of a metadata object. *)
Definition endpoint_fields (m : OAuthMetadata)
    : string * string * option string * option string :=
  (authorization_endpoint m, token_endpoint m,
   registration_endpoint m, revocation_endpoint m).

(** A route dispatches to the handler that belongs to its path, built from
    the given provider, metadata and registration policy. *)
Definition wired {Provider : Type} (provider : Provider)
    (metadata : OAuthMetadata) (registration : ClientRegistrationOptions)
    (r : @Route Provider) : Prop :=
  match endpoint_handler (endpoint r) with
  | MetadataHandler m =>
      path r = "/.well-known/oauth-authorization-server" /\ m = metadata
  | AuthorizationHandler p =>
      path r = AUTHORIZATION_PATH /\ p = provider
  | TokenHandler p authenticator =>
      path r = TOKEN_PATH /\ p = provider
      /\ authenticator = mkClientAuthenticator provider
  | RegistrationHandler p options =>
      path r = REGISTRATION_PATH /\ p = provider
      /\ options = registration /\ registration_enabled options = true
  | RevocationHandler p authenticator =>
      path r = REVOCATION_PATH /\ p = provider
      /\ authenticator = mkClientAuthenticator provider
  | ProtectedResourceMetadataHandler _ => False
  end.

(** A route is declared with the OPTIONS verb exactly when it is wrapped in
    a cross-origin policy. *)
Definition preflight_rule {Provider : Type} (r : @Route Provider) : Prop :=
  is_Some (cors_policy (endpoint r)) <-> "OPTIONS" ∈ methods r.

(** ** The validator: properties *)

Lemma validate_issuer_url_unfold (url : AnyHttpUrl) :
  validate_issuer_url url =
    if negb (String.eqb (scheme url) "https")
       && PyStr.opt_ne (host url) "localhost"
       && match host url with
          | Some h => negb (PyStr.startswith h "127.0.0.1")
          | None => false
          end
    then Raise (ValueError "Issuer URL must be HTTPS")
    else if PyStr.truthy (fragment url)
    then Raise (ValueError "Issuer URL must not have a fragment")
    else if PyStr.truthy (query url)
    then Raise (ValueError "Issuer URL must not have a query string")
    else Ok tt.
Proof.
  unfold validate_issuer_url, raise_if, bind.
  repeat match goal with |- context [if ?b then _ else _] => destruct b end;
    reflexivity.
Qed.

(** The scheme test of the validator, as a proposition. *)
Lemma scheme_test_false (url : AnyHttpUrl) :
  negb (String.eqb (scheme url) "https")
  && PyStr.opt_ne (host url) "localhost"
  && match host url with
     | Some h => negb (PyStr.startswith h "127.0.0.1")
     | None => false
     end = false
  <-> (scheme url = "https" \/ host url = None \/ loopback_host url).
Proof.
  unfold loopback_host, PyStr.opt_ne.
  destruct (String.eqb_spec (scheme url) "https") as [Hs | Hs]; simpl.
  { split; auto. }
  destruct (host url) as [h |]; simpl.
  2: { split; auto. }
  destruct (String.eqb_spec h "localhost") as [Hl | Hl]; simpl.
  { subst h. split; auto. }
  destruct (PyStr.startswith h "127.0.0.1") eqn:Hp; simpl.
  - split; [intros _ | reflexivity].
    right. right. right. exists h. auto.
  - split; [discriminate |].
    intros [H | [H | [H | (h' & H & Hp')]]]; try congruence.
Qed.

Lemma validate_issuer_url_ok_iff (url : AnyHttpUrl) :
  validate_issuer_url url = Ok tt <-> issuer_rule url.
Proof.
  rewrite validate_issuer_url_unfold. unfold issuer_rule.
  rewrite <- scheme_test_false.
  destruct (negb _ && _ && _); [split; [discriminate | intros (_ & _ & H); discriminate] |].
  destruct (PyStr.truthy (fragment url));
    [split; [discriminate | intros (H & _); discriminate] |].
  destruct (PyStr.truthy (query url));
    [split; [discriminate | intros (_ & H & _); discriminate] |].
  split; auto.
Qed.




(** The scheme rejection, as a proposition. *)
Lemma scheme_rejection_iff (url : AnyHttpUrl) :
  validate_issuer_url url = Raise (ValueError "Issuer URL must be HTTPS")
  <-> scheme url <> "https"
      /\ exists h, host url = Some h /\ h <> "localhost"
                   /\ PyStr.startswith h "127.0.0.1" = false.
Proof.
  rewrite validate_issuer_url_unfold. unfold PyStr.opt_ne.
  destruct (String.eqb_spec (scheme url) "https") as [Hs | Hs]; simpl.
  { split; [| intros [H _]; contradiction].
    repeat match goal with |- context [if ?b then _ else _] => destruct b end;
      discriminate. }
  destruct (host url) as [h |]; simpl.
  2: { split; [| intros (_ & h & H & _); discriminate].
       repeat match goal with |- context [if ?b then _ else _] => destruct b end;
         discriminate. }
  destruct (String.eqb_spec h "localhost") as [Hl | Hl]; simpl.
  { split; [| intros (_ & h' & H & Hne & _); congruence].
    repeat match goal with |- context [if ?b then _ else _] => destruct b end;
      discriminate. }
  destruct (PyStr.startswith h "127.0.0.1") eqn:Hp; simpl.
  - split; [| intros (_ & h' & H & _ & Hp'); congruence].
    repeat match goal with |- context [if ?b then _ else _] => destruct b end;
      discriminate.
  - split; [intros _ | reflexivity].
    split; [exact Hs |]. exists h. auto.
Qed.

(** C10: an issuer URL without a host, fragment and query is accepted
    whatever its scheme; the scheme rejection fires exactly when the scheme
    is not https and a host is present that is neither [localhost] nor
    starts with [127.0.0.1]. *)
Theorem validate_issuer_url_absent_host (url : AnyHttpUrl) :
  (host url = None ->
   PyStr.truthy (fragment url) = false ->
   PyStr.truthy (query url) = false ->
   validate_issuer_url url = Ok tt)
  /\ (validate_issuer_url url = Raise (ValueError "Issuer URL must be HTTPS")
      <-> scheme url <> "https"
          /\ exists h, host url = Some h /\ h <> "localhost"
                       /\ PyStr.startswith h "127.0.0.1" = false).
Proof.
  split; [| apply scheme_rejection_iff].
  intros Hh Hf Hq. apply validate_issuer_url_ok_iff.
  unfold issuer_rule. auto.
Qed.

Lemma validate_issuer_url_absent_host_witness :
  validate_issuer_url (mkUrl "ftp" None None (Some "") "ftp:///issuer") = Ok tt.
Proof.
  apply (proj1 (validate_issuer_url_absent_host
                  (mkUrl "ftp" None None (Some "") "ftp:///issuer")));
    reflexivity.
Defined.

(** ** [rstrip]: properties *)

Lemma mem_slash (c : ascii) : PyStr.mem c "/" = Ascii.eqb c "/".
Proof. simpl. apply orb_false_r. Qed.

Lemma rstrip_cons (chars : string) (c : ascii) (s : string) :
  PyStr.rstrip chars (String c s) =
    match PyStr.rstrip chars s with
    | EmptyString => if PyStr.mem c chars then EmptyString else String c EmptyString
    | r => String c r
    end.
Proof. reflexivity. Qed.

(** What [rstrip] removes is a run of slashes. *)
Lemma rstrip_slash_decompose (s : string) :
  exists n, s = PyStr.rstrip "/" s ++ PyStr.repeat_char "/" n.
Proof.
  induction s as [| c s [n IH]].
  - exists 0. reflexivity.
  - rewrite rstrip_cons, mem_slash.
    destruct (PyStr.rstrip "/" s) as [| d r] eqn:Hr.
    + destruct (Ascii.eqb_spec c "/") as [-> | Hc].
      * exists (S n). simpl in *. now rewrite IH at 1.
      * exists n. simpl in *. now rewrite IH at 1.
    + exists n. simpl in *. now rewrite IH at 1.
Qed.

(** What [rstrip] leaves does not end with a slash. *)
Lemma rstrip_slash_no_trailing (s : string) :
  PyStr.endswith_char (PyStr.rstrip "/" s) "/" = false.
Proof.
  induction s as [| c s IH]; [reflexivity |].
  rewrite rstrip_cons, mem_slash.
  destruct (PyStr.rstrip "/" s) as [| d r] eqn:Hr.
  - destruct (Ascii.eqb c "/") eqn:Hc; simpl; [reflexivity | exact Hc].
  - exact IH.
Qed.

Lemma rstrip_slash_run (n : nat) :
  PyStr.rstrip "/" (PyStr.repeat_char "/" n) = "".
Proof.
  induction n as [| n IH]; [reflexivity |].
  simpl PyStr.repeat_char. rewrite rstrip_cons, IH. reflexivity.
Qed.

(** [rstrip] removes every trailing slash: it recovers the slash-free stem
    from any number of appended slashes. *)
Lemma rstrip_slash_stem (t : string) (n : nat) :
  PyStr.endswith_char t "/" = false ->
  PyStr.rstrip "/" (t ++ PyStr.repeat_char "/" n) = t.
Proof.
  induction t as [| c t IH]; intros Hend.
  - apply rstrip_slash_run.
  - change (String c t ++ PyStr.repeat_char "/" n)
      with (String c (t ++ PyStr.repeat_char "/" n)).
    rewrite rstrip_cons, mem_slash.
    destruct t as [| d t'].
    + rewrite IH by reflexivity. simpl in Hend. rewrite Hend. reflexivity.
    + rewrite IH by exact Hend. reflexivity.
Qed.

(** ** The wire document: properties *)

Lemma lookup_put_field_ne (k k' : string) (ov : option JsonValue)
    (doc : gmap string JsonValue) :
  k <> k' -> put_field k ov doc !! k' = doc !! k'.
Proof.
  intros Hne. destruct ov as [v |]; simpl; [| reflexivity].
  now apply lookup_insert_ne.
Qed.

Lemma lookup_put_field_eq (k : string) (ov : option JsonValue)
    (doc : gmap string JsonValue) :
  put_field k ov doc !! k = match ov with Some v => Some v | None => doc !! k end.
Proof.
  destruct ov as [v |]; simpl; [| reflexivity].
  apply lookup_insert_eq.
Qed.

(** A serialized field is never null when its source value is not. *)
Lemma put_field_no_null (k : string) (ov : option JsonValue)
    (doc : gmap string JsonValue) :
  ov <> Some JNull ->
  (forall k', doc !! k' <> Some JNull) ->
  forall k', put_field k ov doc !! k' <> Some JNull.
Proof.
  intros Hov Hdoc k'. destruct ov as [v |]; simpl; [| apply Hdoc].
  destruct (decide (k = k')) as [-> | Hne].
  - rewrite lookup_insert_eq. congruence.
  - rewrite lookup_insert_ne by exact Hne. apply Hdoc.
Qed.

Lemma to_document_no_null (m : OAuthMetadata) (k : string) :
  to_document m !! k <> Some JNull.
Proof.
  revert k. unfold to_document.
  repeat (apply put_field_no_null;
          [ first [ discriminate
                  | match goal with
                    | |- _ <$> ?o <> _ => destruct o; discriminate
                    end ] | ]).
  intros k. rewrite lookup_empty. discriminate.
Qed.

(** Resolve the lookup of a literal key in [to_document]. *)
Ltac lookup_field :=
  unfold to_document;
  repeat (rewrite lookup_put_field_ne by discriminate);
  rewrite lookup_put_field_eq.

(** ** The metadata builder: properties *)

Lemma strip_one_trailing_slash_decompose (s : string) :
  exists n, s = strip_one_trailing_slash s ++ PyStr.repeat_char "/" n.
Proof.
  induction s as [| c s [n IH]].
  - exists 0. reflexivity.
  - destruct s as [| d s'].
    + simpl. destruct (Ascii.eqb_spec c "/") as [-> | Hc].
      * exists 1. reflexivity.
      * exists 0. reflexivity.
    + exists n.
      change (strip_one_trailing_slash (String c (String d s')))
        with (String c (strip_one_trailing_slash (String d s'))).
      change (String c (String d s') =
              String c (strip_one_trailing_slash (String d s')
                        ++ PyStr.repeat_char "/" n)).
      now rewrite <- IH.
Qed.

(** On an issuer with at most one trailing slash, [rstrip] and the removal
    of one slash agree. *)
Lemma rstrip_slash_single (s : string) :
  PyStr.endswith_char (strip_one_trailing_slash s) "/" = false ->
  PyStr.rstrip "/" s = strip_one_trailing_slash s.
Proof.
  intros Hend.
  destruct (strip_one_trailing_slash_decompose s) as [n Hs].
  rewrite Hs at 1. now apply rstrip_slash_stem.
Qed.

(** C2: the registration endpoint is set exactly when the registration
    policy is enabled, and is then the issuer text with its trailing slashes
    removed, which is the text up to its last character other than a slash,
    followed by [/register]; for [http://localhost:8080/] it is
    [http://localhost:8080/register]. *)
Theorem build_metadata_registration_endpoint
    (issuer_url : AnyHttpUrl) (doc_url : option AnyHttpUrl)
    (reg : ClientRegistrationOptions) (rev : RevocationOptions) :
  let m := build_metadata issuer_url doc_url reg rev in
  let stem := PyStr.rstrip "/" (unicode_string issuer_url) in
  (is_Some (registration_endpoint m) <-> registration_enabled reg = true)
  /\ registration_endpoint m =
       (if registration_enabled reg then Some (stem ++ "/register") else None)
  /\ REGISTRATION_PATH = "/register"
  /\ PyStr.endswith_char stem "/" = false
  /\ (exists n, unicode_string issuer_url = stem ++ PyStr.repeat_char "/" n)
  /\ registration_endpoint
       (build_metadata localhost_issuer doc_url enabled_registration rev)
     = Some "http://localhost:8080/register".
Proof.
  intros m stem.
  assert (Hval : forall u r,
             registration_endpoint (build_metadata u doc_url r rev) =
               if registration_enabled r
               then Some (PyStr.rstrip "/" (unicode_string u) ++ "/register")
               else None).
  { intros u r. unfold build_metadata.
    destruct (registration_enabled r), (revocation_enabled rev); reflexivity. }
  split.
  { subst m. rewrite Hval.
    destruct (registration_enabled reg); split; eauto; try discriminate.
    intros [x Hx]; discriminate. }
  split; [apply Hval |]. split; [reflexivity |].
  split; [apply rstrip_slash_no_trailing |].
  split; [apply rstrip_slash_decompose |].
  rewrite Hval. reflexivity.
Qed.

(** C3: the revocation endpoint and its auth-methods field are set together,
    exactly when the revocation policy is enabled; the endpoint is then the
    issuer text with its trailing slashes removed, which is the text up to
    its last character other than a slash, followed by [/revoke] (for
    [http://localhost:8080/] it is [http://localhost:8080/revoke]) and the
    auth methods are [client_secret_post]; when the policy is disabled the
    two keys are missing from the serialized document, and no key of the
    document is ever null. *)
Theorem build_metadata_revocation_fields
    (issuer_url : AnyHttpUrl) (doc_url : option AnyHttpUrl)
    (reg : ClientRegistrationOptions) (rev : RevocationOptions) :
  let m := build_metadata issuer_url doc_url reg rev in
  let stem := PyStr.rstrip "/" (unicode_string issuer_url) in
  revocation_endpoint m =
    (if revocation_enabled rev then Some (stem ++ "/revoke") else None)
  /\ revocation_endpoint_auth_methods_supported m =
       (if revocation_enabled rev then Some ["client_secret_post"] else None)
  /\ (is_Some (revocation_endpoint m) <-> revocation_enabled rev = true)
  /\ (is_Some (revocation_endpoint_auth_methods_supported m)
      <-> revocation_enabled rev = true)
  /\ to_document m !! "revocation_endpoint" =
       (if revocation_enabled rev then Some (JString (stem ++ "/revoke")) else None)
  /\ to_document m !! "revocation_endpoint_auth_methods_supported" =
       (if revocation_enabled rev then Some (JArray ["client_secret_post"]) else None)
  /\ (forall k, to_document m !! k <> Some JNull)
  /\ REVOCATION_PATH = "/revoke"
  /\ PyStr.endswith_char stem "/" = false
  /\ (exists n, unicode_string issuer_url = stem ++ PyStr.repeat_char "/" n)
  /\ revocation_endpoint
       (build_metadata localhost_issuer doc_url reg enabled_revocation)
     = Some "http://localhost:8080/revoke"
  /\ to_document
       (build_metadata localhost_issuer doc_url reg enabled_revocation)
       !! "revocation_endpoint"
     = Some (JString "http://localhost:8080/revoke").
Proof.
  intros m stem.
  assert (Hval : forall u v,
             revocation_endpoint (build_metadata u doc_url reg v) =
               if revocation_enabled v
               then Some (PyStr.rstrip "/" (unicode_string u) ++ "/revoke")
               else None).
  { intros u v. unfold build_metadata.
    destruct (registration_enabled reg), (revocation_enabled v); reflexivity. }
  assert (Hdoc : forall u v,
             to_document (build_metadata u doc_url reg v) !! "revocation_endpoint"
             = JString <$> revocation_endpoint (build_metadata u doc_url reg v)).
  { intros u v. unfold build_metadata.
    destruct (registration_enabled reg), (revocation_enabled v);
      lookup_field; simpl;
      first [ reflexivity
            | rewrite lookup_put_field_ne by discriminate; apply lookup_empty
            | apply lookup_empty ]. }
  assert (He := Hval issuer_url rev). fold m stem in He.
  assert (Ha : revocation_endpoint_auth_methods_supported m =
               if revocation_enabled rev then Some ["client_secret_post"] else None).
  { subst m stem. unfold build_metadata.
    destruct (registration_enabled reg), (revocation_enabled rev); reflexivity. }
  split; [exact He |]. split; [exact Ha |].
  split.
  { rewrite He. destruct (revocation_enabled rev); split; eauto;
      try discriminate; intros [x Hx]; discriminate. }
  split.
  { rewrite Ha. destruct (revocation_enabled rev); split; eauto;
      try discriminate; intros [x Hx]; discriminate. }
  split.
  { subst m. rewrite Hdoc, Hval. fold stem.
    destruct (revocation_enabled rev); reflexivity. }
  split.
  { lookup_field. rewrite Ha.
    destruct (revocation_enabled rev); simpl; [reflexivity |].
    apply lookup_empty. }
  split; [intros k; apply to_document_no_null |].
  split; [reflexivity |].
  split; [apply rstrip_slash_no_trailing |].
  split; [apply rstrip_slash_decompose |].
  split; [rewrite Hval; reflexivity |].
  rewrite Hdoc, Hval. reflexivity.
Qed.

(** C4 (as amended): the authorization and token endpoints are the issuer
    text with all of its trailing slashes removed, followed by [/authorize]
    and [/token]; for [https://auth.example.com] they are
    [https://auth.example.com/authorize] and
    [https://auth.example.com/token]. *)
Theorem build_metadata_endpoints
    (issuer_url : AnyHttpUrl) (doc_url : option AnyHttpUrl)
    (reg : ClientRegistrationOptions) (rev : RevocationOptions) :
  let m := build_metadata issuer_url doc_url reg rev in
  let stem := PyStr.rstrip "/" (unicode_string issuer_url) in
  let example :=
    build_metadata
      (mkUrl "https" (Some "auth.example.com") None None "https://auth.example.com")
      doc_url reg rev in
  authorization_endpoint m = stem ++ "/authorize"
  /\ token_endpoint m = stem ++ "/token"
  /\ PyStr.endswith_char stem "/" = false
  /\ (exists n, unicode_string issuer_url = stem ++ PyStr.repeat_char "/" n)
  /\ authorization_endpoint example = "https://auth.example.com/authorize"
  /\ token_endpoint example = "https://auth.example.com/token".
Proof.
  intros m stem example.
  assert (Hfix : forall u,
             authorization_endpoint (build_metadata u doc_url reg rev) =
               PyStr.rstrip "/" (unicode_string u) ++ "/authorize"
             /\ token_endpoint (build_metadata u doc_url reg rev) =
                  PyStr.rstrip "/" (unicode_string u) ++ "/token").
  { intros u. unfold build_metadata.
    destruct (registration_enabled reg), (revocation_enabled rev);
      split; reflexivity. }
  destruct (Hfix issuer_url) as [Hauth Htok].
  split; [exact Hauth |]. split; [exact Htok |].
  split; [apply rstrip_slash_no_trailing |].
  split; [apply rstrip_slash_decompose |].
  subst example. destruct (Hfix
    (mkUrl "https" (Some "auth.example.com") None None "https://auth.example.com"))
    as [-> ->].
  split; reflexivity.
Qed.

(** C4 (as stated) fails: on a validated issuer whose text ends in two
    slashes both are removed, not one. *)
Lemma build_metadata_double_slash_counterexample :
  let issuer_url :=
    mkUrl "https" (Some "auth.example.com") None None "https://auth.example.com//" in
  let m :=
    build_metadata issuer_url None
      (mkRegistrationOptions false None) (mkRevocationOptions false) in
  validate_issuer_url issuer_url = Ok tt
  /\ strip_one_trailing_slash (unicode_string issuer_url) ++ AUTHORIZATION_PATH
     = "https://auth.example.com//authorize"
  /\ authorization_endpoint m = "https://auth.example.com/authorize"
  /\ authorization_endpoint m
     <> strip_one_trailing_slash (unicode_string issuer_url) ++ AUTHORIZATION_PATH.
Proof.
  repeat split; try reflexivity.
  vm_compute. discriminate.
Qed.

(** C7: the capability lists are the fixed ones, the supported scopes are
    the registration policy's valid scopes, and the response-modes,
    signing-alg-values, UI-locales, policy-URI, ToS-URI and
    introspection-endpoint fields are unset. *)
Theorem build_metadata_capabilities
    (issuer_url : AnyHttpUrl) (doc_url : option AnyHttpUrl)
    (reg : ClientRegistrationOptions) (rev : RevocationOptions) :
  let m := build_metadata issuer_url doc_url reg rev in
  response_types_supported m = ["code"]
  /\ grant_types_supported m = Some ["authorization_code"; "refresh_token"]
  /\ token_endpoint_auth_methods_supported m = Some ["client_secret_post"]
  /\ code_challenge_methods_supported m = Some ["S256"]
  /\ scopes_supported m = valid_scopes reg
  /\ response_modes_supported m = None
  /\ token_endpoint_auth_signing_alg_values_supported m = None
  /\ ui_locales_supported m = None
  /\ op_policy_uri m = None
  /\ op_tos_uri m = None
  /\ introspection_endpoint m = None.
Proof.
  unfold build_metadata.
  destruct (registration_enabled reg), (revocation_enabled rev);
    repeat split; reflexivity.
Qed.

(** ** The route tables: properties *)

Section RouteProperties.

Context {Provider : Type}.
Variable header : string.
Variable default_registration_options : ClientRegistrationOptions.
Variable default_revocation_options : RevocationOptions.

(** Assembly runs the validator first and fails with its error. *)
Lemma create_auth_routes_invalid
    (provider : Provider) (issuer_url : AnyHttpUrl)
    (doc_url : option AnyHttpUrl)
    (reg : option ClientRegistrationOptions) (rev : option RevocationOptions)
    (e : Exception) :
  validate_issuer_url issuer_url = Raise e ->
  create_auth_routes header default_registration_options
    default_revocation_options provider issuer_url doc_url reg rev = Raise e.
Proof. intros Hv. unfold create_auth_routes. rewrite Hv. reflexivity. Qed.

(** C5: on a validated issuer the route table has 3 entries, plus one when
    registration is enabled, plus one when revocation is enabled; it starts
    with the metadata discovery, authorization and token entries, followed
    by the registration entry and then the revocation entry, each when
    enabled. *)
Theorem create_auth_routes_table
    (provider : Provider) (issuer_url : AnyHttpUrl)
    (doc_url : option AnyHttpUrl)
    (reg : option ClientRegistrationOptions) (rev : option RevocationOptions) :
  validate_issuer_url issuer_url = Ok tt ->
  let registration := or_default reg default_registration_options in
  let revocation := or_default rev default_revocation_options in
  exists routes,
    create_auth_routes header default_registration_options
      default_revocation_options provider issuer_url doc_url reg rev = Ok routes
    /\ length routes =
         3 + (if registration_enabled registration then 1 else 0)
           + (if revocation_enabled revocation then 1 else 0)
    /\ route_row <$> take 3 routes =
         [ ("/.well-known/oauth-authorization-server", ["GET"; "OPTIONS"]);
           ("/authorize", ["GET"; "POST"]);
           ("/token", ["POST"; "OPTIONS"]) ]
    /\ route_row <$> drop 3 routes =
         ((if registration_enabled registration
           then [("/register", ["POST"; "OPTIONS"])] else [])
          ++ (if revocation_enabled revocation
              then [("/revoke", ["POST"; "OPTIONS"])] else []))%list.
Proof.
  intros Hv registration revocation.
  unfold create_auth_routes. rewrite Hv. simpl bind.
  fold registration revocation.
  destruct (registration_enabled registration),
           (revocation_enabled revocation);
    eexists; repeat split; reflexivity.
Qed.

(** C6: in a returned route table the authorization entry, which is the
    second one and the only one on its path, dispatches to its handler
    directly; every other entry is wrapped in a cross-origin policy with
    any origin, the entry's own methods and the single protocol-version
    header. *)
Theorem create_auth_routes_cors
    (provider : Provider) (issuer_url : AnyHttpUrl)
    (doc_url : option AnyHttpUrl)
    (reg : option ClientRegistrationOptions) (rev : option RevocationOptions)
    (routes : list Route) :
  create_auth_routes header default_registration_options
    default_revocation_options provider issuer_url doc_url reg rev = Ok routes ->
  Forall (cors_rule header) routes
  /\ routes !! 1 =
       Some (mkRoute AUTHORIZATION_PATH (Direct (AuthorizationHandler provider))
               ["GET"; "POST"])
  /\ length (List.filter
               (fun r => String.eqb (path r) AUTHORIZATION_PATH) routes) = 1.
Proof.
  unfold create_auth_routes.
  destruct (validate_issuer_url issuer_url) as [[] | e]; simpl bind;
    [| discriminate].
  destruct (registration_enabled _), (revocation_enabled _);
    intros [= <-]; (split; [| split; reflexivity]);
    repeat constructor.
Qed.

(** C8 (as amended): for a non-empty list of trusted authorization servers
    the table has exactly one entry, on the protected-resource discovery
    path with methods GET and OPTIONS and a cross-origin policy; the
    document it serves carries the given resource, servers and scopes and
    header-only bearer methods. *)
Theorem create_protected_resource_routes_table
    (resource_url : AnyHttpUrl) (servers : list AnyHttpUrl)
    (scopes : option (list string)) :
  servers <> [] ->
  exists (r : @Route Provider) (md : ProtectedResourceMetadata),
    create_protected_resource_routes header resource_url servers scopes = Ok [r]
    /\ path r = "/.well-known/oauth-protected-resource"
    /\ methods r = ["GET"; "OPTIONS"]
    /\ cors_policy (endpoint r) = Some ("*", ["GET"; "OPTIONS"], [header])
    /\ endpoint_handler (endpoint r) = ProtectedResourceMetadataHandler md
    /\ resource md = resource_url
    /\ authorization_servers md = servers
    /\ pr_scopes_supported md = scopes
    /\ bearer_methods_supported md = Some ["header"].
Proof.
  intros Hne. destruct servers as [| s servers']; [contradiction |].
  do 2 eexists. unfold create_protected_resource_routes. simpl.
  repeat split; reflexivity.
Qed.

(** C9: with an empty list of trusted authorization servers assembly
    raises and returns no table; a returned table implies a non-empty
    list. *)
Theorem create_protected_resource_routes_empty
    (resource_url : AnyHttpUrl) (scopes : option (list string)) :
  (exists msg,
     create_protected_resource_routes (Provider := Provider) header
       resource_url [] scopes = Raise (ValidationError msg))
  /\ (forall routes,
        create_protected_resource_routes (Provider := Provider) header
          resource_url [] scopes <> Ok routes)
  /\ (forall servers routes,
        create_protected_resource_routes (Provider := Provider) header
          resource_url servers scopes = Ok routes -> servers <> []).
Proof.
  split; [eexists; reflexivity |].
  split; [intros routes; discriminate |].
  intros servers routes H ->. discriminate.
Qed.

End RouteProperties.

(** ** Worked examples *)

Lemma create_auth_routes_table_witness :
  exists routes : list (@Route unit),
    create_auth_routes "mcp-protocol-version"
      disabled_registration disabled_revocation tt localhost_issuer None
      (Some (mkRegistrationOptions true (Some ["read"; "write"])))
      (Some (mkRevocationOptions true)) = Ok routes
    /\ length routes = 5
    /\ route_row <$> take 3 routes =
         [ ("/.well-known/oauth-authorization-server", ["GET"; "OPTIONS"]);
           ("/authorize", ["GET"; "POST"]);
           ("/token", ["POST"; "OPTIONS"]) ]
    /\ route_row <$> drop 3 routes =
         [ ("/register", ["POST"; "OPTIONS"]);
           ("/revoke", ["POST"; "OPTIONS"]) ].
Proof.
  exact (create_auth_routes_table "mcp-protocol-version"
           disabled_registration disabled_revocation tt localhost_issuer None
           (Some (mkRegistrationOptions true (Some ["read"; "write"])))
           (Some (mkRevocationOptions true)) eq_refl).
Defined.

Lemma create_auth_routes_cors_witness :
  exists routes : list (@Route unit),
    create_auth_routes "mcp-protocol-version"
      disabled_registration disabled_revocation tt example_issuer None
      None None = Ok routes
    /\ length routes = 3
    /\ Forall (cors_rule "mcp-protocol-version") routes.
Proof.
  eexists. split; [reflexivity |]. split; [reflexivity |].
  eapply (create_auth_routes_cors "mcp-protocol-version"
            disabled_registration disabled_revocation tt example_issuer None
            None None).
  reflexivity.
Defined.

Lemma create_protected_resource_routes_table_witness :
  exists r : @Route unit,
    create_protected_resource_routes "mcp-protocol-version"
      example_resource [example_issuer] None = Ok [r]
    /\ path r = "/.well-known/oauth-protected-resource"
    /\ cors_policy (endpoint r)
       = Some ("*", ["GET"; "OPTIONS"], ["mcp-protocol-version"]).
Proof.
  destruct (create_protected_resource_routes_table (Provider := unit)
              "mcp-protocol-version" example_resource [example_issuer] None)
    as (r & md & Hr & Hp & _ & Hc & _).
  - discriminate.
  - exists r. auto.
Defined.

(** C8 (as stated) fails: with no trusted authorization server no table is
    returned. *)
Lemma create_protected_resource_routes_empty_counterexample :
  create_protected_resource_routes (Provider := unit) "mcp-protocol-version"
    example_resource [] None
  = Raise (ValidationError "authorization_servers: List should have at least 1 item")
  /\ ~ (exists r : @Route unit,
          create_protected_resource_routes "mcp-protocol-version"
            example_resource [] None = Ok [r]).
Proof.
  split; [reflexivity |].
  intros [r Hr]. discriminate.
Qed.

(** The loopback example of the specification: the issuer is accepted and
    both optional endpoints are derived from the stripped issuer. *)
Example localhost_example :
  let m :=
    build_metadata localhost_issuer None
      (mkRegistrationOptions true (Some ["read"; "write"]))
      (mkRevocationOptions true) in
  validate_issuer_url localhost_issuer = Ok tt
  /\ registration_endpoint m = Some "http://localhost:8080/register"
  /\ revocation_endpoint m = Some "http://localhost:8080/revoke"
  /\ scopes_supported m = Some ["read"; "write"].
Proof. repeat split; reflexivity. Qed.

(** The first example of the specification: no optional key in the
    document. *)
Example disabled_example :
  let m :=
    build_metadata example_issuer None disabled_registration disabled_revocation in
  to_document m !! "authorization_endpoint"
    = Some (JString "https://auth.example.com/authorize")
  /\ to_document m !! "token_endpoint"
     = Some (JString "https://auth.example.com/token")
  /\ to_document m !! "registration_endpoint" = None
  /\ to_document m !! "revocation_endpoint" = None.
Proof.
  simpl. repeat split; lookup_field; try reflexivity;
    repeat (rewrite lookup_put_field_ne by discriminate); apply lookup_empty.
Qed.

(** ** The validator: order of the checks and edge inputs *)

(** X1: the fragment error is raised exactly when the scheme test passes and
    the fragment is non-empty; the query error exactly when the scheme test
    passes, the fragment is absent or empty and the query is non-empty. A
    URL that breaks several rules reports the first one only. *)
Theorem validate_issuer_url_error_order (url : AnyHttpUrl) :
  (validate_issuer_url url
     = Raise (ValueError "Issuer URL must not have a fragment")
   <-> scheme_rule url /\ PyStr.truthy (fragment url) = true)
  /\ (validate_issuer_url url
        = Raise (ValueError "Issuer URL must not have a query string")
      <-> scheme_rule url /\ PyStr.truthy (fragment url) = false
          /\ PyStr.truthy (query url) = true).
Proof.
  rewrite validate_issuer_url_unfold. unfold scheme_rule.
  rewrite <- scheme_test_false.
  destruct (negb _ && _ && _).
  { split; (split; [discriminate | intros [H _]; discriminate]). }
  destruct (PyStr.truthy (fragment url)).
  { split; split; try discriminate; auto.
    intros (_ & H & _); discriminate. }
  destruct (PyStr.truthy (query url)).
  { split; split; try discriminate; auto.
    intros (_ & H); discriminate. }
  split; split; try discriminate.
  - intros (_ & H); discriminate.
  - intros (_ & _ & H); discriminate.
Qed.

(** X2: an empty fragment or an empty query is treated like an absent one:
    the validator returns the same result. *)
Theorem validate_issuer_url_empty_components
    (s : string) (h f q : option string) (text : string) :
  validate_issuer_url (mkUrl s h (Some "") q text)
    = validate_issuer_url (mkUrl s h None q text)
  /\ validate_issuer_url (mkUrl s h f (Some "") text)
     = validate_issuer_url (mkUrl s h f None text).
Proof.
  rewrite !validate_issuer_url_unfold. split; reflexivity.
Qed.

Lemma startswith_append (p s : string) : PyStr.startswith (p ++ s) p = true.
Proof.
  unfold PyStr.startswith.
  induction p as [| a p IH].
  - destruct s; reflexivity.
  - change (String a p ++ s) with (String a (p ++ s)).
    change (String.prefix (String a p) (String a (p ++ s)))
      with (match ascii_dec a a with
            | left _ => String.prefix p (p ++ s)
            | right _ => false
            end).
    destruct (ascii_dec a a) as [_ | Hne]; [exact IH | contradiction].
Qed.

(** X3: the loopback exception is a prefix test: any host that begins with
    [127.0.0.1], whatever follows, is accepted under any scheme when the URL
    has no fragment and no query. *)
Theorem validate_issuer_url_loopback_prefix
    (url : AnyHttpUrl) (suffix : string) :
  host url = Some ("127.0.0.1" ++ suffix) ->
  PyStr.truthy (fragment url) = false ->
  PyStr.truthy (query url) = false ->
  validate_issuer_url url = Ok tt.
Proof.
  intros Hh Hf Hq. apply validate_issuer_url_ok_iff.
  split; [exact Hf |]. split; [exact Hq |].
  right. right. right. exists ("127.0.0.1" ++ suffix).
  split; [exact Hh | apply startswith_append].
Qed.

Lemma validate_issuer_url_loopback_prefix_witness :
  validate_issuer_url
    (mkUrl "http" (Some "127.0.0.1.example.net") None None
       "http://127.0.0.1.example.net/") = Ok tt.
Proof.
  apply (validate_issuer_url_loopback_prefix
           (mkUrl "http" (Some "127.0.0.1.example.net") None None
              "http://127.0.0.1.example.net/")
           ".example.net");
    reflexivity.
Defined.

(** ** The metadata builder: trailing slashes of the issuer *)

Lemma string_append_assoc (a b c : string) : (a ++ b) ++ c = a ++ (b ++ c).
Proof.
  induction a as [| x a IH]; [reflexivity |].
  change (String x ((a ++ b) ++ c) = String x (a ++ (b ++ c))).
  now rewrite IH.
Qed.

Lemma repeat_char_add (c : ascii) (k n : nat) :
  PyStr.repeat_char c k ++ PyStr.repeat_char c n = PyStr.repeat_char c (k + n).
Proof.
  induction k as [| k IH]; [reflexivity |].
  change (String c (PyStr.repeat_char c k ++ PyStr.repeat_char c n)
          = String c (PyStr.repeat_char c (k + n))).
  now rewrite IH.
Qed.

(** Appending slashes does not change what [rstrip] returns. *)
Lemma rstrip_slash_append_run (s : string) (n : nat) :
  PyStr.rstrip "/" (s ++ PyStr.repeat_char "/" n) = PyStr.rstrip "/" s.
Proof.
  destruct (rstrip_slash_decompose s) as [k Hk].
  rewrite Hk at 1.
  rewrite string_append_assoc, repeat_char_add.
  apply rstrip_slash_stem, rstrip_slash_no_trailing.
Qed.

(** X9: two issuers whose texts differ only by trailing slashes get the same
    authorization, token, registration and revocation endpoints. *)
Theorem build_metadata_trailing_slashes
    (issuer_url issuer_url' : AnyHttpUrl) (doc_url : option AnyHttpUrl)
    (reg : ClientRegistrationOptions) (rev : RevocationOptions) (n : nat) :
  unicode_string issuer_url'
    = unicode_string issuer_url ++ PyStr.repeat_char "/" n ->
  endpoint_fields (build_metadata issuer_url' doc_url reg rev)
    = endpoint_fields (build_metadata issuer_url doc_url reg rev).
Proof.
  intros Htext. unfold endpoint_fields, build_metadata.
  rewrite Htext, rstrip_slash_append_run.
  destruct (registration_enabled reg), (revocation_enabled rev); reflexivity.
Qed.

Lemma build_metadata_trailing_slashes_witness :
  endpoint_fields
    (build_metadata
       (mkUrl "https" (Some "auth.example.com") None None
          "https://auth.example.com/tenant///")
       None (mkRegistrationOptions true None) (mkRevocationOptions true))
  = endpoint_fields
      (build_metadata
         (mkUrl "https" (Some "auth.example.com") None None
            "https://auth.example.com/tenant")
         None (mkRegistrationOptions true None) (mkRevocationOptions true)).
Proof.
  apply (build_metadata_trailing_slashes
           (mkUrl "https" (Some "auth.example.com") None None
              "https://auth.example.com/tenant")
           (mkUrl "https" (Some "auth.example.com") None None
              "https://auth.example.com/tenant///")
           None (mkRegistrationOptions true None) (mkRevocationOptions true) 3).
  reflexivity.
Defined.

(** ** The route tables: invariants *)

(** Settle membership of a literal in a literal list. *)
Ltac literal_elem :=
  match goal with
  | |- _ ∈ _ => apply (bool_decide_unpack _); vm_compute; exact I
  | H : _ ∈ _ |- _ =>
      apply (bool_decide_pack _) in H; vm_compute in H; exact (False_ind _ H)
  end.

(** Settle one direction of "the optional value is set iff the literal is
    listed". *)
Ltac presence_side :=
  match goal with
  | |- is_Some (Some _) -> _ => intros _; literal_elem
  | |- is_Some None -> _ => let x := fresh in intros [x [=]]
  | |- _ -> is_Some (Some _) => intros _; eexists; reflexivity
  | |- _ -> is_Some None => let H := fresh in intros H; literal_elem
  end.

(** Settle a decidable statement about literals. *)
Ltac literal_decide := apply (bool_decide_unpack _); vm_compute; exact I.

(** Open a returned authorization-server route table by cases on the two
    policy flags. *)
Ltac open_table :=
  unfold create_auth_routes;
  destruct (validate_issuer_url _) as [[] | ?]; simpl bind;
  [| discriminate];
  destruct (registration_enabled _) eqn:?, (revocation_enabled _) eqn:?;
  intros [= <-].

Section RouteInvariants.

Context {Provider : Type}.
Variable header : string.
Variable default_registration_options : ClientRegistrationOptions.
Variable default_revocation_options : RevocationOptions.

(** X5: the first route serves the metadata built from the issuer and the
    effective policies, and that metadata advertises exactly the routed
    paths after the discovery path, each appended to the stripped issuer, in
    table order; so the registration and revocation endpoints are
    advertised exactly when their routes exist. *)
Theorem create_auth_routes_advertises
    (provider : Provider) (issuer_url : AnyHttpUrl)
    (doc_url : option AnyHttpUrl)
    (reg : option ClientRegistrationOptions) (rev : option RevocationOptions)
    (routes : list Route) :
  create_auth_routes header default_registration_options
    default_revocation_options provider issuer_url doc_url reg rev = Ok routes ->
  let m :=
    build_metadata issuer_url doc_url
      (or_default reg default_registration_options)
      (or_default rev default_revocation_options) in
  let stem := PyStr.rstrip "/" (unicode_string issuer_url) in
  (fun r => endpoint_handler (endpoint r)) <$> routes !! 0
    = Some (MetadataHandler m)
  /\ advertised_endpoints m
     = (fun p => stem ++ p) <$> drop 1 (path <$> routes)
  /\ (is_Some (registration_endpoint m) <-> REGISTRATION_PATH ∈ path <$> routes)
  /\ (is_Some (revocation_endpoint m) <-> REVOCATION_PATH ∈ path <$> routes).
Proof.
  open_table;
    unfold advertised_endpoints, build_metadata;
    repeat match goal with H : _ = _ |- _ => rewrite H end; simpl;
    (split; [reflexivity |]); (split; [reflexivity |]);
    split; split; presence_side.
Qed.

(** X6: the paths of a returned table are pairwise distinct and each begins
    with a slash. *)
Theorem create_auth_routes_paths
    (provider : Provider) (issuer_url : AnyHttpUrl)
    (doc_url : option AnyHttpUrl)
    (reg : option ClientRegistrationOptions) (rev : option RevocationOptions)
    (routes : list Route) :
  create_auth_routes header default_registration_options
    default_revocation_options provider issuer_url doc_url reg rev = Ok routes ->
  NoDup (path <$> routes)
  /\ Forall (fun r => PyStr.startswith (path r) "/" = true) routes.
Proof.
  open_table; (split; [literal_decide | repeat constructor]).
Qed.

(** X7: in a returned table a route is declared with the OPTIONS verb
    exactly when it is wrapped in a cross-origin policy: the authorization
    route is declared without OPTIONS and every wrapped route with it. *)
Theorem create_auth_routes_preflight
    (provider : Provider) (issuer_url : AnyHttpUrl)
    (doc_url : option AnyHttpUrl)
    (reg : option ClientRegistrationOptions) (rev : option RevocationOptions)
    (routes : list Route) :
  create_auth_routes header default_registration_options
    default_revocation_options provider issuer_url doc_url reg rev = Ok routes ->
  Forall preflight_rule routes.
Proof.
  open_table;
    repeat (constructor;
            [ unfold preflight_rule; simpl; split; presence_side | ]);
    constructor.
Qed.

(** X8: every route of a returned table dispatches to the handler of its
    own path: the metadata handler holds the built metadata, every other
    handler holds the given provider, the token and revocation handlers
    each hold a client authenticator built over that provider, and the
    registration handler holds the effective registration policy, which is
    enabled. No route dispatches to the protected-resource handler. *)
Theorem create_auth_routes_wiring
    (provider : Provider) (issuer_url : AnyHttpUrl)
    (doc_url : option AnyHttpUrl)
    (reg : option ClientRegistrationOptions) (rev : option RevocationOptions)
    (routes : list Route) :
  create_auth_routes header default_registration_options
    default_revocation_options provider issuer_url doc_url reg rev = Ok routes ->
  Forall
    (wired provider
       (build_metadata issuer_url doc_url
          (or_default reg default_registration_options)
          (or_default rev default_revocation_options))
       (or_default reg default_registration_options))
    routes.
Proof.
  open_table; repeat constructor; assumption.
Qed.

(** X10: the tables of the two assemblers can be mounted together: across
    both tables the route paths are pairwise distinct. *)
Theorem create_routes_disjoint
    (provider : Provider) (issuer_url resource_url : AnyHttpUrl)
    (doc_url : option AnyHttpUrl)
    (reg : option ClientRegistrationOptions) (rev : option RevocationOptions)
    (servers : list AnyHttpUrl) (scopes : option (list string))
    (routes resource_routes : list Route) :
  create_auth_routes header default_registration_options
    default_revocation_options provider issuer_url doc_url reg rev = Ok routes ->
  create_protected_resource_routes header resource_url servers scopes
    = Ok resource_routes ->
  NoDup (path <$> (routes ++ resource_routes)%list).
Proof.
  intros Hroutes Hres.
  unfold create_protected_resource_routes in Hres.
  destruct (new_ProtectedResourceMetadata _ _ _) as [md | e];
    simpl in Hres; [| discriminate].
  injection Hres as <-.
  revert Hroutes. open_table; literal_decide.
Qed.

End RouteInvariants.

(** ** The route tables: the invariants on the loopback example *)

Lemma create_auth_routes_advertises_witness :
  exists routes : list (@Route unit),
    create_auth_routes "mcp-protocol-version"
      disabled_registration disabled_revocation tt localhost_issuer None
      (Some enabled_registration) (Some enabled_revocation) = Ok routes
    /\ advertised_endpoints
         (build_metadata localhost_issuer None
            enabled_registration enabled_revocation)
       = [ "http://localhost:8080/authorize"; "http://localhost:8080/token";
           "http://localhost:8080/register"; "http://localhost:8080/revoke" ].
Proof.
  eexists. split; [reflexivity |].
  refine (proj1 (proj2
    (create_auth_routes_advertises "mcp-protocol-version"
       disabled_registration disabled_revocation tt localhost_issuer None
       (Some enabled_registration) (Some enabled_revocation) _ eq_refl))).
Defined.

Lemma create_auth_routes_paths_witness :
  exists routes : list (@Route unit),
    create_auth_routes "mcp-protocol-version"
      disabled_registration disabled_revocation tt localhost_issuer None
      (Some enabled_registration) (Some enabled_revocation) = Ok routes
    /\ NoDup (path <$> routes).
Proof.
  eexists. split; [reflexivity |].
  refine (proj1
    (create_auth_routes_paths "mcp-protocol-version"
       disabled_registration disabled_revocation tt localhost_issuer None
       (Some enabled_registration) (Some enabled_revocation) _ eq_refl)).
Defined.

Lemma create_auth_routes_preflight_witness :
  exists routes : list (@Route unit),
    create_auth_routes "mcp-protocol-version"
      disabled_registration disabled_revocation tt localhost_issuer None
      (Some enabled_registration) (Some enabled_revocation) = Ok routes
    /\ Forall preflight_rule routes.
Proof.
  eexists. split; [reflexivity |].
  refine (create_auth_routes_preflight "mcp-protocol-version"
            disabled_registration disabled_revocation tt localhost_issuer None
            (Some enabled_registration) (Some enabled_revocation) _ eq_refl).
Defined.

Lemma create_auth_routes_wiring_witness :
  exists routes : list (@Route unit),
    create_auth_routes "mcp-protocol-version"
      disabled_registration disabled_revocation tt localhost_issuer None
      (Some enabled_registration) None = Ok routes
    /\ Forall
         (wired tt
            (build_metadata localhost_issuer None
               enabled_registration disabled_revocation)
            enabled_registration)
         routes.
Proof.
  eexists. split; [reflexivity |].
  refine (create_auth_routes_wiring "mcp-protocol-version"
            disabled_registration disabled_revocation tt localhost_issuer None
            (Some enabled_registration) None _ eq_refl).
Defined.

Lemma create_routes_disjoint_witness :
  exists routes resource_routes : list (@Route unit),
    create_auth_routes "mcp-protocol-version"
      disabled_registration disabled_revocation tt example_issuer None
      (Some enabled_registration) (Some enabled_revocation) = Ok routes
    /\ create_protected_resource_routes "mcp-protocol-version"
         example_resource [example_issuer] None = Ok resource_routes
    /\ NoDup (path <$> (routes ++ resource_routes)%list).
Proof.
  do 2 eexists. split; [reflexivity |]. split; [reflexivity |].
  refine (create_routes_disjoint "mcp-protocol-version"
            disabled_registration disabled_revocation tt example_issuer
            example_resource None
            (Some enabled_registration) (Some enabled_revocation)
            [example_issuer] None _ _ eq_refl eq_refl).
Defined.
